(** * exceltodb: spreadsheet extraction and store synchronisation

    A shallow embedding of [src/script.ts] and the properties of its
    three stages (extraction, synchronisation, reporting) and of the
    orchestrating [main].

    - JavaScript strings are sequences of UTF-16 code units.
    - JavaScript numbers are IEEE 754 binary64 values ([spec_float]).
    - The effects of the script (file system, store round trips, console,
      exceptions) are threaded through a state-and-exception monad
      [Prog] over a [World]. *)

From Stdlib Require Import List ZArith NArith Bool Arith Lia String Ascii.
From Stdlib Require Import Floats.SpecFloat.
Import ListNotations.

Set Implicit Arguments.

(* ===================================================================== *)
(** * Part I: definitions                                                 *)
(* ===================================================================== *)

(** ** JavaScript values *)

Module JS.

(** A string is a sequence of UTF-16 code units. *)
Definition code_unit := N.
Definition jsstring := list code_unit.

(** A number is a binary64 value. *)
Definition number := spec_float.

Definition number_eq_dec (x y : number) : {x = y} + {x <> y}.
Proof.
  decide equality; try apply Bool.bool_dec;
    try apply Z.eq_dec; apply Pos.eq_dec.
Defined.

(** The number an integer literal denotes (round to nearest even). *)
Definition of_Z (z : Z) : number := binary_normalize 53 1024 z 0 false.

Fixpoint string_eqb (s t : jsstring) : bool :=
  match s, t with
  | [], [] => true
  | c :: s', d :: t' => N.eqb c d && string_eqb s' t'
  | _, _ => false
  end.

(** [s.length] *)
Definition length (s : jsstring) : Z := Z.of_nat (List.length s).

(** [s.charAt(i)]: the one-unit string at index [i], or the empty
    string when [i] is out of range. *)
Definition charAt (s : jsstring) (i : Z) : jsstring :=
  if (i <? 0)%Z then []
  else match nth_error s (Z.to_nat i) with
       | Some c => [c]
       | None => []
       end.

(** [s.startsWith(p)] *)
Fixpoint startsWith (s p : jsstring) : bool :=
  match p, s with
  | [], _ => true
  | _ :: _, [] => false
  | d :: p', c :: s' => N.eqb c d && startsWith s' p'
  end.

(** [s.indexOf(p)]: the first index at which [p] occurs, or [-1]. *)
Fixpoint indexOf_from (s p : jsstring) (i : Z) : Z :=
  if startsWith s p then i
  else match s with
       | [] => (-1)%Z
       | _ :: s' => indexOf_from s' p (i + 1)
       end.
Definition indexOf (s p : jsstring) : Z := indexOf_from s p 0.

(** [s.substring(start)]: a negative start counts as 0, a start past
    the end gives the empty string. *)
Definition substring (s : jsstring) (start : Z) : jsstring :=
  skipn (Z.to_nat start) s.

(** The global [isNaN] applied to a number, and [Number.isNaN]. *)
Definition isNaN (x : number) : bool :=
  match x with
  | S754_nan => true
  | _ => false
  end.

Definition Number_isNaN (x : number) : bool :=
  match x with
  | S754_nan => true
  | _ => false
  end.

(** [Number.isInteger]: finite and without a fractional part. The
    finite value [m * 2^e] is integral when [e >= 0] or when [2^(-e)]
    divides [m]. *)
Definition Number_isInteger (x : number) : bool :=
  match x with
  | S754_zero _ => true
  | S754_finite _ m e =>
      (0 <=? e)%Z || (Z.pos m mod 2 ^ (- e) =? 0)%Z
  | S754_infinity _ | S754_nan => false
  end.

(** The built-in conversions from text to numbers. Their parsing rules
    are those of the language, not of this program; the script is
    verified for every behaviour they may have. *)
Class Builtins := {
  parseInt : jsstring -> number;
  parseFloat : jsstring -> number;
  Number : jsstring -> number
}.

End JS.

Abbreviation jsstring := JS.jsstring.
Abbreviation number := JS.number.

(** The marker character of a channel label: U+05D0. *)
Definition aleph : jsstring := [1488%N].
Definition space : jsstring := [32%N].

(** An ASCII literal as a JavaScript string. *)
Definition literal (s : string) : jsstring :=
  map N_of_ascii (list_ascii_of_string s).

(** ** The conversions, run

    An executable rendering of the three conversions on the literals this
    program meets: white space, signs, decimal digits with fraction and
    exponent, [Infinity], and the [0x] prefix. It serves to run the
    script on concrete sheets; no property below depends on it. *)

Module Reference.

Definition is_white (c : JS.code_unit) : bool :=
  existsb (N.eqb c)
    [9; 10; 11; 12; 13; 32; 160; 5760; 8232; 8233; 8239; 8287; 12288;
     65279]%N
  || ((8192 <=? c) && (c <=? 8202))%N.

Fixpoint skip_white (s : jsstring) : jsstring :=
  match s with
  | c :: s' => if is_white c then skip_white s' else s
  | [] => []
  end.

Definition trim (s : jsstring) : jsstring :=
  rev (skip_white (rev (skip_white s))).

Definition decimal_digit (c : JS.code_unit) : option Z :=
  if ((48 <=? c) && (c <=? 57))%N then Some (Z.of_N c - 48)%Z else None.

Definition hex_digit (c : JS.code_unit) : option Z :=
  if ((48 <=? c) && (c <=? 57))%N then Some (Z.of_N c - 48)%Z
  else if ((97 <=? c) && (c <=? 102))%N then Some (Z.of_N c - 87)%Z
  else if ((65 <=? c) && (c <=? 70))%N then Some (Z.of_N c - 55)%Z
  else None.

(** The longest run of digits at the head of [s]: how many there are,
    the integer they spell after [acc], and what follows. *)
Fixpoint digits (radix : Z) (digit : JS.code_unit -> option Z)
         (s : jsstring) (acc : Z) : nat * Z * jsstring :=
  match s with
  | c :: s' =>
      match digit c with
      | Some d =>
          let '(n, v, rest) := digits radix digit s' (acc * radix + d)%Z in
          (S n, v, rest)
      | None => (O, acc, s)
      end
  | [] => (O, acc, [])
  end.

(** An optional sign: whether it is negative, and what follows. *)
Definition sign (s : jsstring) : bool * jsstring :=
  match s with
  | 45%N :: s' => (true, s')
  | 43%N :: s' => (false, s')
  | _ => (false, s)
  end.

(** The binary64 value nearest to [m * 10^e], for [m >= 0], ties to
    even. A negative exponent divides with a sticky bit. *)
Definition scaled (negative : bool) (m e : Z) : number :=
  if (m =? 0)%Z then S754_zero negative
  else
    let signed (x : Z) := if negative then (- x)%Z else x in
    if (0 <=? e)%Z
    then binary_normalize 53 1024 (signed (m * 10 ^ e)%Z) 0 negative
    else
      let d := (10 ^ (- e))%Z in
      let k := Z.max 0 (Z.log2 d - Z.log2 m + 64) in
      let n := (m * 2 ^ k)%Z in
      let sticky := if (n mod d =? 0)%Z then 0%Z else 1%Z in
      binary_normalize 53 1024 (signed (2 * (n / d) + sticky)%Z)
                       (- (k + 1)) negative.

(** An exponent part [e], [e+] or [e-] with digits, if one stands at
    the head of [s]. *)
Definition exponent (s : jsstring) : Z * jsstring :=
  match s with
  | c :: s' =>
      if ((c =? 101) || (c =? 69))%N then
        let '(negative, s'') := sign s' in
        let '(n, v, rest) := digits 10 decimal_digit s'' 0%Z in
        match n with
        | O => (0%Z, s)
        | S _ => (if negative then (- v)%Z else v, rest)
        end
      else (0%Z, s)
  | [] => (0%Z, s)
  end.

(** A signed decimal literal at the head of [s], and what follows it;
    [None] when there is none. *)
Definition decimal_literal (s : jsstring) : option (number * jsstring) :=
  let '(negative, s1) := sign s in
  if JS.startsWith s1 (map N_of_ascii (list_ascii_of_string "Infinity"))
  then Some (S754_infinity negative, skipn 8 s1)
  else
    let '(ni, vi, s2) := digits 10 decimal_digit s1 0%Z in
    let '(nf, vf, s3) :=
      match s2 with
      | 46%N :: s2' =>
          let '(nf, vf, s3) := digits 10 decimal_digit s2' vi in
          match ni, nf with
          | O, O => (O, vi, s2)
          | _, _ => (nf, vf, s3)
          end
      | _ => (O, vi, s2)
      end in
    match ni, nf with
    | O, O => None
    | _, _ =>
        let '(e, s4) := exponent s3 in
        Some (scaled negative vf (e - Z.of_nat nf), s4)
    end.

(** [parseFloat(s)] *)
Definition parseFloat (s : jsstring) : number :=
  match decimal_literal (skip_white s) with
  | Some (x, _) => x
  | None => S754_nan
  end.

(** [parseInt(s)], without a radix argument. *)
Definition parseInt (s : jsstring) : number :=
  let '(negative, s1) := sign (skip_white s) in
  let '(n, v, _) :=
    match s1 with
    | 48%N :: x :: s2 =>
        if ((x =? 120) || (x =? 88))%N
        then digits 16 hex_digit s2 0%Z
        else digits 10 decimal_digit s1 0%Z
    | _ => digits 10 decimal_digit s1 0%Z
    end in
  match n with
  | O => S754_nan
  | S _ => scaled negative v 0
  end.

(** [Number(s)] *)
Definition Number (s : jsstring) : number :=
  match trim s with
  | [] => S754_zero false
  | 48%N :: x :: s2 =>
      if ((x =? 120) || (x =? 88))%N then
        match digits 16 hex_digit s2 0%Z with
        | (S _, v, []) => scaled false v 0
        | _ => S754_nan
        end
      else
        match decimal_literal (trim s) with
        | Some (x, []) => x
        | _ => S754_nan
        end
  | t =>
      match decimal_literal t with
      | Some (x, []) => x
      | _ => S754_nan
      end
  end.

Definition builtins : JS.Builtins :=
  {| JS.parseInt := parseInt; JS.parseFloat := parseFloat;
     JS.Number := Number |}.

End Reference.

(** ** Spreadsheet data, as the script reads it through ExcelJS *)

Module ExcelJS.

(** [ExcelJS.ValueType] *)
Inductive ValueType :=
| Null | Merge | Number | String | Date | Hyperlink
| Formula | SharedString | RichText | Boolean | Error.

Definition ValueType_eqb (a b : ValueType) : bool :=
  match a, b with
  | Null, Null | Merge, Merge | Number, Number | String, String
  | Date, Date | Hyperlink, Hyperlink | Formula, Formula
  | SharedString, SharedString | RichText, RichText
  | Boolean, Boolean | Error, Error => true
  | _, _ => false
  end.

(** [CellValue]: what [cell.value] may hold. Dates, error values, rich
    text, hyperlinks and formulas are objects; the script only asks
    whether the value is a string. *)
Inductive CellValue :=
| VNull
| VNumber (n : number)
| VString (s : jsstring)
| VBoolean (b : bool)
| VObject.

(** The three properties of a cell the script reads. *)
Record Cell := mkCell {
  value : CellValue;
  type : ValueType;
  text : jsstring
}.

Definition emptyCell : Cell := mkCell VNull Null [].

(** A row as [eachRow] hands it to its callback, with its 1-based
    number in the sheet. *)
Record Row := mkRow {
  number_ : Z;
  cells : list Cell
}.

(** [row.getCell(col)], 1-based; a column the row does not hold is an
    empty cell. *)
Definition getCell (row : Row) (col : Z) : Cell :=
  if (col <? 1)%Z then emptyCell
  else nth (Z.to_nat (col - 1)) (cells row) emptyCell.

(** A worksheet is the sequence of rows [eachRow] visits, in order. *)
Definition Worksheet := list Row.

(** A workbook holds worksheets by id. *)
Definition Workbook := list (Z * Worksheet).

(** [workbook.getWorksheet(id)] *)
Fixpoint getWorksheet (wb : Workbook) (id : Z) : option Worksheet :=
  match wb with
  | [] => None
  | (k, sheet) :: wb' => if (k =? id)%Z then Some sheet else getWorksheet wb' id
  end.

(** What [workbook.xlsx.readFile(path)] finds at a path. *)
Inductive FileContents :=
| Unreadable
| Readable (wb : Workbook).

End ExcelJS.

(** ** The records of the script *)

(** [interface ExcelDataRow] *)
Record ExcelDataRow := mkExcelDataRow {
  channel : number;
  frequency : number
}.

(** ** The world the script runs in *)

(** A request sent to the [excelData] table of the store. *)
Inductive Request :=
| FindFirst (c : number)
| Update (c f : number)
| Create (row : ExcelDataRow)
| FindMany.

(** What a failing operation throws. *)
Inductive Exn :=
| ReadFileFailed (path : jsstring)
| RequestFailed (req : Request)
| RecordNotFound (c : number).

(** Console output. *)
Inductive Message :=
| WorksheetUndefined
| InvalidChannel (rowNumber : Z)
| InvalidFrequency (rowNumber : Z)
| EmptyFrequency (rowNumber : Z)
| ErrorReadingFile (error : Exn)
| DataUploaded
| ErrorUpdatingData (error : Exn)
| FetchedData (data : list ExcelDataRow)
| ErrorFetchingData (error : Exn)
| ProgramCompleted
| ErrorInMain (error : Exn).

Inductive Line :=
| Log (m : Message)        (* console.log *)
| Err (m : Message).       (* console.error *)

(** The row number a message names, if it names one. *)
Definition row_named (m : Message) : option Z :=
  match m with
  | InvalidChannel n | InvalidFrequency n | EmptyFrequency n => Some n
  | _ => None
  end.

Definition is_error (l : Line) : bool :=
  match l with Err _ => true | Log _ => false end.

(** - [disk]: what each path holds.
    - [table]: the rows of the store, in the order the store enumerates
      them.
    - [requests]: every request issued to the store so far, oldest first.
    - [failing k]: whether the request number [k] (counting from 0 over
      [requests]) fails. A failing request throws and leaves [table] as
      it was.
    - [console]: the lines printed so far, oldest first.
    - [connected], [disconnects]: the state of the store client. *)
Record World := mkWorld {
  disk : jsstring -> ExcelJS.FileContents;
  table : list ExcelDataRow;
  requests : list Request;
  failing : nat -> bool;
  console : list Line;
  connected : bool;
  disconnects : nat
}.

Definition set_table (t : list ExcelDataRow) (w : World) : World :=
  mkWorld (disk w) t (requests w) (failing w) (console w)
          (connected w) (disconnects w).

Definition add_request (r : Request) (w : World) : World :=
  mkWorld (disk w) (table w) (requests w ++ [r]) (failing w) (console w)
          (connected w) (disconnects w).

Definition add_line (l : Line) (w : World) : World :=
  mkWorld (disk w) (table w) (requests w) (failing w) (console w ++ [l])
          (connected w) (disconnects w).

Definition set_connected (b : bool) (w : World) : World :=
  mkWorld (disk w) (table w) (requests w) (failing w) (console w)
          b (disconnects w).

Definition count_disconnect (w : World) : World :=
  mkWorld (disk w) (table w) (requests w) (failing w) (console w)
          false (S (disconnects w)).

(** ** Programs: state and exceptions *)

Inductive Outcome (A : Type) :=
| Returned (a : A)
| Thrown (e : Exn).
Arguments Returned {A} a.
Arguments Thrown {A} e.

Definition Prog (A : Type) := World -> Outcome A * World.

Definition ret {A} (a : A) : Prog A := fun w => (Returned a, w).

Definition bind {A B} (p : Prog A) (k : A -> Prog B) : Prog B :=
  fun w =>
    match p w with
    | (Returned a, w') => k a w'
    | (Thrown e, w') => (Thrown e, w')
    end.

Definition throw {A} (e : Exn) : Prog A := fun w => (Thrown e, w).

(** [try { body } catch (error) { handler }] *)
Definition try_catch {A} (body : Prog A) (handler : Exn -> Prog A) : Prog A :=
  fun w =>
    match body w with
    | (Returned a, w') => (Returned a, w')
    | (Thrown e, w') => handler e w'
    end.

(** [try { body } finally { cleanup }]: the cleanup runs on both exits;
    what it throws replaces the outcome of the body. *)
Definition try_finally {A} (body : Prog A) (cleanup : Prog unit) : Prog A :=
  fun w =>
    match body w with
    | (o, w') =>
        match cleanup w' with
        | (Returned _, w'') => (o, w'')
        | (Thrown e, w'') => (Thrown e, w'')
        end
    end.

Declare Scope prog_scope.
Delimit Scope prog_scope with prog.
Notation "x <- p ;; k" := (bind p (fun x => k))
  (at level 100, p at next level, right associativity) : prog_scope.
Notation "p ;; k" := (bind p (fun _ => k))
  (at level 100, right associativity) : prog_scope.
Local Open Scope prog_scope.

Definition console_log (m : Message) : Prog unit :=
  fun w => (Returned tt, add_line (Log m) w).

Definition console_error (m : Message) : Prog unit :=
  fun w => (Returned tt, add_line (Err m) w).

(** ** The store client *)

Module Prisma.

(** Modelled from the spec: the schema of the [excelData] table is not
    part of the sources. The table holds rows with the fields [channel]
    and [frequency]; the operations are find-by-channel,
    update-by-channel, create and find-all. A row matches a channel
    when its [channel] field holds that very value. *)
Definition matches (c : number) (row : ExcelDataRow) : bool :=
  if JS.number_eq_dec (channel row) c then true else false.

Definition overwrite (c f : number) (row : ExcelDataRow) : ExcelDataRow :=
  if matches c row then mkExcelDataRow (channel row) f else row.

(** One round trip to the store: the request is recorded, and throws
    when the world says that this round trip fails. *)
Definition round_trip (r : Request) : Prog unit :=
  fun w =>
    if failing w (List.length (requests w))
    then (Thrown (RequestFailed r), add_request r w)
    else (Returned tt, add_request r w).

(** [prisma.excelData.findFirst({ where: { channel } })] *)
Definition findFirst (c : number) : Prog (option ExcelDataRow) :=
  round_trip (FindFirst c);;
  fun w => (Returned (find (matches c) (table w)), w).

(** [prisma.excelData.update({ where: { channel }, data: { frequency } })]:
    throws when no row has the channel. *)
Definition update (c f : number) : Prog unit :=
  round_trip (Update c f);;
  fun w =>
    if existsb (matches c) (table w)
    then (Returned tt, set_table (map (overwrite c f) (table w)) w)
    else throw (RecordNotFound c) w.

(** [prisma.excelData.create({ data: { channel, frequency } })] *)
Definition create (row : ExcelDataRow) : Prog unit :=
  round_trip (Create row);;
  fun w => (Returned tt, set_table (table w ++ [row]) w).

(** [prisma.excelData.findMany()] *)
Definition findMany : Prog (list ExcelDataRow) :=
  round_trip FindMany;;
  fun w => (Returned (table w), w).

(** [new PrismaClient()] *)
Definition new_client : Prog unit :=
  fun w => (Returned tt, set_connected true w).

(** [prisma.$disconnect()] *)
Definition disconnect : Prog unit :=
  fun w => (Returned tt, count_disconnect w).

End Prisma.

(** ** The script *)

Section Script.

Context {builtins : JS.Builtins}.

(** [isValidChannelFormat], lines 74-89. The loop runs for
    [i = 0 .. input.length - 1]; [remaining] counts the iterations
    left, [input.length - i], so that [remaining = 0] is the exit test
    [i < input.length] failing. *)
Fixpoint isValidChannelFormat_loop (input : jsstring) (remaining : nat)
         (i : Z) (foundAleph : bool) : bool :=
  match remaining with
  | O => false
  | S remaining' =>
      if JS.string_eqb (JS.charAt input i) aleph then
        isValidChannelFormat_loop input remaining' (i + 1) true
      else if foundAleph then
        if JS.string_eqb (JS.charAt input i) space
           || negb (JS.isNaN (JS.Number (JS.charAt input i)))
        then false
        else false
      else isValidChannelFormat_loop input remaining' (i + 1) foundAleph
  end.

Definition isValidChannelFormat (input : jsstring) : bool :=
  isValidChannelFormat_loop input (Z.to_nat (JS.length input)) 0 false.

(** [typeof v === 'string'], with the string. *)
Definition asString (v : ExcelJS.CellValue) : option jsstring :=
  match v with
  | ExcelJS.VString s => Some s
  | _ => None
  end.

(** The condition of line 34 on a string value. *)
Definition channelRejected (s : jsstring) : bool :=
  negb (JS.startsWith s aleph)
  || (JS.indexOf s aleph =? -1)%Z
  || negb (isValidChannelFormat s).

(** The condition of line 50. *)
Definition frequencyAccepted (frequency : number) : bool :=
  negb (JS.isNaN frequency)
  && (JS.Number_isInteger frequency || negb (JS.Number_isNaN frequency)).

(** Lines 45-60: the frequency cell of a row whose channel was
    accepted. *)
Definition readFrequency (rowNumber : Z) (channel : number)
           (frequencyCell : ExcelJS.Cell) (excelData : list ExcelDataRow)
  : Prog (list ExcelDataRow) :=
  if negb (ExcelJS.ValueType_eqb (ExcelJS.type frequencyCell) ExcelJS.Null)
  then
    let frequency := JS.parseFloat (ExcelJS.text frequencyCell) in
    if frequencyAccepted frequency
    then ret (excelData ++ [mkExcelDataRow channel frequency])
    else (console_error (InvalidFrequency rowNumber);; ret excelData)
  else (console_error (EmptyFrequency rowNumber);; ret excelData).

(** The callback of [eachRow], lines 29-63. It takes the array
    [excelData] and gives it back, extended or not. *)
Definition rowCallback (row : ExcelJS.Row) (rowNumber : Z)
           (excelData : list ExcelDataRow) : Prog (list ExcelDataRow) :=
  let channelCellValue := ExcelJS.value (ExcelJS.getCell row 1) in
  match asString channelCellValue with
  | None => console_error (InvalidChannel rowNumber);; ret excelData
  | Some s =>
      if channelRejected s
      then (console_error (InvalidChannel rowNumber);; ret excelData)
      else
        let indexOfAlef := JS.indexOf s aleph in
        let channel := JS.parseInt (JS.substring s (indexOfAlef + 1)) in
        readFrequency rowNumber channel (ExcelJS.getCell row 2) excelData
  end.

(** [worksheet.eachRow(callback)]: the callback is called on each row
    with the row's number. What the callback changes besides the world,
    here the array [excelData], is passed from one call to the next. *)
Fixpoint eachRow {A} (worksheet : ExcelJS.Worksheet)
         (callback : ExcelJS.Row -> Z -> A -> Prog A) (a : A) : Prog A :=
  match worksheet with
  | [] => ret a
  | row :: rest =>
      a' <- callback row (ExcelJS.number_ row) a;;
      eachRow rest callback a'
  end.

(** [workbook.xlsx.readFile(filePath)] *)
Definition readFile (filePath : jsstring) : Prog ExcelJS.Workbook :=
  fun w =>
    match disk w filePath with
    | ExcelJS.Unreadable => throw (ReadFileFailed filePath) w
    | ExcelJS.Readable wb => (Returned wb, w)
    end.

(** [readExcelFile], lines 10-71. *)
Definition readExcelFile (filePath : jsstring) : Prog (list ExcelDataRow) :=
  try_catch
    (workbook <- readFile filePath;;
     match ExcelJS.getWorksheet workbook 1 with
     | None => console_error WorksheetUndefined;; ret []
     | Some worksheet => eachRow worksheet rowCallback []
     end)
    (fun error => console_error (ErrorReadingFile error);; ret []).

(** The loop of [uploadData], lines 96-114. *)
Fixpoint uploadLoop (excelData : list ExcelDataRow) : Prog unit :=
  match excelData with
  | [] => ret tt
  | mkExcelDataRow channel frequency :: rest =>
      existingRecord <- Prisma.findFirst channel;;
      match existingRecord with
      | Some _ => Prisma.update channel frequency
      | None => Prisma.create (mkExcelDataRow channel frequency)
      end;;
      uploadLoop rest
  end.

(** [uploadData], lines 93-122. *)
Definition uploadData (excelData : list ExcelDataRow) : Prog unit :=
  try_catch
    (uploadLoop excelData;;
     console_log DataUploaded)
    (fun error => console_error (ErrorUpdatingData error)).

(** [fetchData], lines 125-136. *)
Definition fetchData : Prog unit :=
  try_catch
    (data <- Prisma.findMany;;
     console_log (FetchedData data))
    (fun error => console_error (ErrorFetchingData error)).

(** [main], lines 139-157. *)
Definition main : Prog unit :=
  Prisma.new_client;;
  try_finally
    (try_catch
       (excelData <- readExcelFile (literal "D:/ExcelToTable.xlsx");;
        uploadData excelData;;
        fetchData;;
        console_log ProgramCompleted)
       (fun error => console_error (ErrorInMain error)))
    Prisma.disconnect.

End Script.

(** ** The synchroniser as the specification words it *)

(** Upsert by channel: overwrite the frequency where a row with the
    channel exists, insert the record otherwise. *)
Definition upsert (r : ExcelDataRow) (t : list ExcelDataRow)
  : list ExcelDataRow :=
  if existsb (Prisma.matches (channel r)) t
  then map (Prisma.overwrite (channel r) (frequency r)) t
  else t ++ [r].

(** The records of a sequence upserted one at a time, in order. *)
Definition upsert_all (rows t : list ExcelDataRow) : list ExcelDataRow :=
  fold_left (fun t r => upsert r t) rows t.

(** The two requests one record costs: the query, then the update or the
    insertion. *)
Definition requests_of (r : ExcelDataRow) (t : list ExcelDataRow)
  : list Request :=
  [ FindFirst (channel r);
    if existsb (Prisma.matches (channel r)) t
    then Update (channel r) (frequency r)
    else Create r ].

Fixpoint requests_all (rows t : list ExcelDataRow) : list Request :=
  match rows with
  | [] => []
  | r :: rest => requests_of r t ++ requests_all rest (upsert r t)
  end.

(** The world once [rows] have been upserted, no request failing. *)
Definition synced (rows : list ExcelDataRow) (w : World) : World :=
  mkWorld (disk w) (upsert_all rows (table w))
          (requests w ++ requests_all rows (table w))
          (failing w) (console w) (connected w) (disconnects w).

(** The second request of a record: its update or its insertion. *)
Definition write_of (r : ExcelDataRow) (t : list ExcelDataRow) : Request :=
  nth 1 (requests_of r t) FindMany.

(** None of the next [n] requests fails. *)
Definition quiet (w : World) (n : nat) : Prop :=
  forall k, k < n -> failing w (List.length (requests w) + k) = false.

(** The frequency of the last record of a sequence that has the channel. *)
Fixpoint last_frequency (c : number) (rows : list ExcelDataRow)
  : option number :=
  match rows with
  | [] => None
  | r :: rest =>
      match last_frequency c rest with
      | Some f => Some f
      | None => if Prisma.matches c r then Some (frequency r) else None
      end
  end.

(** A row is settled when it carries the last frequency the sequence
    gives for its channel. *)
Definition settled (rows : list ExcelDataRow) (row : ExcelDataRow) : Prop :=
  forall f, last_frequency (channel row) rows = Some f -> frequency row = f.

(** What a run makes of a row when every channel of the sequence is
    already in the table. *)
Definition finalize (rows : list ExcelDataRow) (row : ExcelDataRow)
  : ExcelDataRow :=
  match last_frequency (channel row) rows with
  | Some f => mkExcelDataRow (channel row) f
  | None => row
  end.

(** Two worlds with the store client in the same state. *)
Definition same_client (w w' : World) : Prop :=
  connected w' = connected w /\ disconnects w' = disconnects w.

Definition is_create (q : Request) : bool :=
  match q with Create _ => true | _ => false end.

(** At most one row per channel. *)
Definition unique_channels (t : list ExcelDataRow) : Prop :=
  NoDup (map channel t).

(** ** Channel labels of the intended shape *)

Definition is_digit (c : JS.code_unit) : bool :=
  (48 <=? c)%N && (c <=? 57)%N.

(** The marker followed by one or more digits and nothing else. *)
Definition marker_then_digits (s : jsstring) : bool :=
  match s with
  | c :: d :: ds => (c =? 1488)%N && forallb is_digit (d :: ds)
  | _ => false
  end.

(** ** What the extractor prints *)

(** One invalid-channel line per row, in row order. *)
Definition rejections (worksheet : ExcelJS.Worksheet) : list Line :=
  map (fun row => Err (InvalidChannel (ExcelJS.number_ row))) worksheet.

Definition add_lines (ls : list Line) (w : World) : World :=
  fold_left (fun w l => add_line l w) ls w.

(** ** Sample data *)

Module Sample.

Definition path : jsstring := literal "D:/ExcelToTable.xlsx".

Definition label (digits : string) : jsstring := aleph ++ literal digits.

Definition text_cell (s : jsstring) : ExcelJS.Cell :=
  ExcelJS.mkCell (ExcelJS.VString s) ExcelJS.String s.

Definition number_cell (digits : string) : ExcelJS.Cell :=
  ExcelJS.mkCell (ExcelJS.VNumber (Reference.parseFloat (literal digits)))
                 ExcelJS.Number (literal digits).

(** Two rows of the intended shape. *)
Definition labelled_sheet : ExcelJS.Worksheet :=
  [ ExcelJS.mkRow 1 [text_cell (label "7"); number_cell "101.5"];
    ExcelJS.mkRow 2 [text_cell (label "9"); number_cell "102"] ].

(** A row with a label and no frequency cell. *)
Definition empty_frequency_row : ExcelJS.Row :=
  ExcelJS.mkRow 4 [text_cell (label "9")].

(** The four rows of the end-to-end scenario of the specification. *)
Definition scenario_sheet : ExcelJS.Worksheet :=
  [ ExcelJS.mkRow 1 [text_cell (label "7"); number_cell "101.5"];
    ExcelJS.mkRow 2 [text_cell (label "7"); number_cell "102.0"];
    ExcelJS.mkRow 3 [text_cell (literal "bad"); number_cell "5"];
    empty_frequency_row ].

(** A world whose disk holds [sheet] as worksheet 1 at [path], whose
    store holds [t], and whose requests fail as [f] says. *)
Definition world (sheet : ExcelJS.Worksheet) (t : list ExcelDataRow)
           (f : nat -> bool) : World :=
  mkWorld (fun p => if JS.string_eqb p path
                    then ExcelJS.Readable [(1%Z, sheet)]
                    else ExcelJS.Unreadable)
          t [] f [] false 0.

(** A world with nothing readable on its disk. *)
Definition bare_world (t : list ExcelDataRow) (f : nat -> bool) : World :=
  mkWorld (fun _ => ExcelJS.Unreadable) t [] f [] false 0.

Definition never : nat -> bool := fun _ => false.

Definition record (c f : string) : ExcelDataRow :=
  mkExcelDataRow (Reference.parseInt (literal c))
                 (Reference.parseFloat (literal f)).

(** Three records, two of them for channel 7. *)
Definition records : list ExcelDataRow :=
  [record "7" "101.5"; record "7" "102.0"; record "9" "3"].

(** The request number 3, the fourth, fails. *)
Definition fourth : nat -> bool := fun k => Nat.eqb k 3.

Definition sheet_world : World := world labelled_sheet [] never.
Definition empty_world : World := bare_world [] never.
Definition failing_world : World := bare_world [record "7" "1"] fourth.
Definition broken_world : World := bare_world [] fourth.

(** The scenario sheet on disk, the store empty. *)
Definition scenario_world : World := world scenario_sheet [] never.

(** A store that already holds channels 3, 7 and 9. *)
Definition stored_world : World :=
  bare_world [record "3" "0.5"; record "7" "1"; record "9" "2"] never.

(** Two records for two channels. *)
Definition fresh_records : list ExcelDataRow :=
  [record "7" "101.5"; record "9" "3"].

End Sample.

(* ===================================================================== *)
(** * Part II: properties                                                 *)
(* ===================================================================== *)

(** ** Reasoning about programs *)

Lemma bind_returned {A B} (p : Prog A) (k : A -> Prog B) w a w' :
  p w = (Returned a, w') -> bind p k w = k a w'.
Proof. intros E. unfold bind. now rewrite E. Qed.

Lemma bind_thrown {A B} (p : Prog A) (k : A -> Prog B) w e w' :
  p w = (Thrown e, w') -> bind p k w = (Thrown e, w').
Proof. intros E. unfold bind. now rewrite E. Qed.

Lemma try_catch_returned {A} (p : Prog A) h w a w' :
  p w = (Returned a, w') -> try_catch p h w = (Returned a, w').
Proof. intros E. unfold try_catch. now rewrite E. Qed.

Lemma try_catch_thrown {A} (p : Prog A) h w e w' :
  p w = (Thrown e, w') -> try_catch p h w = h e w'.
Proof. intros E. unfold try_catch. now rewrite E. Qed.

(** ** The extractor *)

Section Extractor.

Context {builtins : JS.Builtins}.

(** The scan answers [false] from every position and in both states of
    its flag: each of its three exits is [return false]. *)
Lemma isValidChannelFormat_loop_false input remaining :
  forall i foundAleph,
    isValidChannelFormat_loop input remaining i foundAleph = false.
Proof.
  induction remaining as [|n IH]; intros i foundAleph; simpl.
  - reflexivity.
  - destruct (JS.string_eqb (JS.charAt input i) aleph).
    + apply IH.
    + destruct foundAleph.
      * now destruct (_ || _).
      * apply IH.
Qed.

Lemma isValidChannelFormat_false input :
  isValidChannelFormat input = false.
Proof. apply isValidChannelFormat_loop_false. Qed.

Lemma channelRejected_true s : channelRejected s = true.
Proof.
  unfold channelRejected.
  rewrite isValidChannelFormat_false. simpl.
  now rewrite !orb_true_r.
Qed.

(** Every row is turned down at the channel check. *)
Lemma rowCallback_rejects row rowNumber excelData w :
  rowCallback row rowNumber excelData w
  = (Returned excelData, add_line (Err (InvalidChannel rowNumber)) w).
Proof.
  unfold rowCallback.
  destruct (asString _) as [s|]; [rewrite channelRejected_true|];
    reflexivity.
Qed.

Lemma eachRow_rejects worksheet :
  forall excelData w,
    eachRow worksheet rowCallback excelData w
    = (Returned excelData, add_lines (rejections worksheet) w).
Proof.
  induction worksheet as [|row rest IH]; intros excelData w; simpl.
  - reflexivity.
  - erewrite bind_returned by apply rowCallback_rejects.
    now rewrite IH.
Qed.

(** What [readExcelFile] does, by what the path holds. *)
Lemma readExcelFile_unreadable filePath w :
  disk w filePath = ExcelJS.Unreadable ->
  readExcelFile filePath w
  = (Returned [],
     add_line (Err (ErrorReadingFile (ReadFileFailed filePath))) w).
Proof.
  intros D. unfold readExcelFile, try_catch, bind, readFile.
  now rewrite D.
Qed.

Lemma readExcelFile_no_sheet filePath w wb :
  disk w filePath = ExcelJS.Readable wb ->
  ExcelJS.getWorksheet wb 1 = None ->
  readExcelFile filePath w
  = (Returned [], add_line (Err WorksheetUndefined) w).
Proof.
  intros D G. unfold readExcelFile, try_catch, bind, readFile.
  now rewrite D, G.
Qed.

Lemma readExcelFile_sheet filePath w wb worksheet :
  disk w filePath = ExcelJS.Readable wb ->
  ExcelJS.getWorksheet wb 1 = Some worksheet ->
  readExcelFile filePath w
  = (Returned [], add_lines (rejections worksheet) w).
Proof.
  intros D G. unfold readExcelFile, try_catch, bind, readFile.
  now rewrite D, G, eachRow_rejects.
Qed.

(** The extractor never throws and never yields a record. *)
Lemma readExcelFile_empty filePath w :
  exists w', readExcelFile filePath w = (Returned [], w').
Proof.
  destruct (disk w filePath) as [|wb] eqn:D.
  - eexists. now apply readExcelFile_unreadable.
  - destruct (ExcelJS.getWorksheet wb 1) as [worksheet|] eqn:G.
    + eexists. eapply readExcelFile_sheet; eauto.
    + eexists. eapply readExcelFile_no_sheet; eauto.
Qed.

(** C1: a label in which the marker is followed by at least one more
    character, digits included, is never a valid channel format; hence
    a worksheet whose rows all carry a label of the intended shape,
    the marker followed by digits, yields the empty sequence. *)
Theorem marker_labels_never_accepted :
  (forall before c after,
      isValidChannelFormat (before ++ aleph ++ c :: after) = false)
  /\ (forall filePath w wb worksheet,
         disk w filePath = ExcelJS.Readable wb ->
         ExcelJS.getWorksheet wb 1 = Some worksheet ->
         (forall row, In row worksheet ->
            exists s, ExcelJS.value (ExcelJS.getCell row 1) = ExcelJS.VString s
                      /\ marker_then_digits s = true) ->
         fst (readExcelFile filePath w) = Returned []).
Proof.
  split.
  - intros. apply isValidChannelFormat_false.
  - intros filePath w wb worksheet D G _.
    now rewrite (readExcelFile_sheet _ _ D G).
Qed.

(** C6: when the workbook cannot be read, or holds no first worksheet,
    [readExcelFile] returns the empty sequence, prints one error line
    and does not throw. *)
Theorem readExcelFile_file_level_failure filePath w :
  disk w filePath = ExcelJS.Unreadable
  \/ (exists wb, disk w filePath = ExcelJS.Readable wb
                 /\ ExcelJS.getWorksheet wb 1 = None) ->
  exists m, readExcelFile filePath w = (Returned [], add_line (Err m) w).
Proof.
  intros [D | (wb & D & G)].
  - eexists. now apply readExcelFile_unreadable.
  - eexists. eapply readExcelFile_no_sheet; eassumption.
Qed.

(** C7: a row whose frequency cell has the null type adds nothing to
    the extracted sequence, and exactly one error line is printed for
    it, naming the row's number. The same holds of the frequency step
    taken alone, whose line reports the empty cell. *)
Theorem empty_frequency_row_excluded :
  (forall row excelData w,
      ExcelJS.type (ExcelJS.getCell row 2) = ExcelJS.Null ->
      exists m,
        rowCallback row (ExcelJS.number_ row) excelData w
        = (Returned excelData, add_line (Err m) w)
        /\ row_named m = Some (ExcelJS.number_ row))
  /\ (forall rowNumber channel frequencyCell excelData w,
         ExcelJS.type frequencyCell = ExcelJS.Null ->
         readFrequency rowNumber channel frequencyCell excelData w
         = (Returned excelData, add_line (Err (EmptyFrequency rowNumber)) w)).
Proof.
  split.
  - intros row excelData w _.
    exists (InvalidChannel (ExcelJS.number_ row)).
    split; [apply rowCallback_rejects | reflexivity].
  - intros rowNumber c cell excelData w T.
    unfold readFrequency. now rewrite T.
Qed.

(** C8: the compound condition on the parsed frequency holds exactly
    when the value is not NaN; zeros, finite values and infinities are
    all accepted. *)
Theorem frequency_check_is_not_NaN :
  (forall frequency,
      frequencyAccepted frequency = negb (JS.isNaN frequency))
  /\ frequencyAccepted S754_nan = false
  /\ (forall s, frequencyAccepted (S754_zero s) = true)
  /\ (forall s, frequencyAccepted (S754_infinity s) = true)
  /\ (forall s m e, frequencyAccepted (S754_finite s m e) = true).
Proof.
  assert (E : forall x, frequencyAccepted x = negb (JS.isNaN x)).
  { intros x. unfold frequencyAccepted.
    destruct x; simpl; try reflexivity.
    now rewrite orb_true_r. }
  repeat split; intros; rewrite E; reflexivity.
Qed.

End Extractor.

(** ** The synchroniser *)

Section Synchroniser.

Lemma find_existsb {A} (f : A -> bool) l :
  existsb f l = match find f l with Some _ => true | None => false end.
Proof.
  induction l as [|a l IH]; simpl; [reflexivity|].
  now destruct (f a).
Qed.

Lemma requests_after (q : Request) w :
  List.length (requests (add_request q w)) = S (List.length (requests w)).
Proof. simpl. rewrite length_app. simpl. lia. Qed.

(** One turn of the loop, by the fate of its two requests. *)
Lemma uploadLoop_cons r rest w :
  uploadLoop (r :: rest) w =
  let query := FindFirst (channel r) in
  if failing w (List.length (requests w))
  then (Thrown (RequestFailed query), add_request query w)
  else if failing w (S (List.length (requests w)))
       then (Thrown (RequestFailed (write_of r (table w))),
             add_request (write_of r (table w)) (add_request query w))
       else uploadLoop rest (synced [r] w).
Proof.
  destruct r as [c f]. cbn [uploadLoop channel].
  unfold bind at 1. unfold Prisma.findFirst, bind at 1.
  unfold Prisma.round_trip at 1.
  destruct (failing w (List.length (requests w))) eqn:F0; [reflexivity|].
  cbn [table add_request].
  unfold write_of, requests_of, synced, upsert_all, upsert.
  cbn [channel frequency nth fold_left requests_all].
  pose proof (find_existsb (Prisma.matches c) (table w)) as E.
  destruct (find (Prisma.matches c) (table w)) as [found|];
    rewrite E; unfold bind at 1;
    unfold Prisma.update, Prisma.create, bind, Prisma.round_trip;
    rewrite requests_after; cbn [failing add_request table];
    (destruct (failing w (S (List.length (requests w)))); [reflexivity|]);
    rewrite ?E; unfold set_table, requests_of;
    cbn [disk table requests failing console connected disconnects
         add_request channel frequency];
    rewrite E, <- !app_assoc; reflexivity.
Qed.

Lemma synced_nil w : synced [] w = w.
Proof. destruct w. unfold synced. cbn. now rewrite app_nil_r. Qed.

Lemma synced_cons r rest w : synced (r :: rest) w = synced rest (synced [r] w).
Proof.
  unfold synced, upsert_all. cbn.
  now rewrite <- !app_assoc.
Qed.

Lemma requests_all_length rows :
  forall t, List.length (requests_all rows t) = 2 * List.length rows.
Proof.
  induction rows as [|r rows IH]; intros t; cbn; [reflexivity|].
  rewrite IH. lia.
Qed.

Lemma synced_requests_length rows w :
  List.length (requests (synced rows w))
  = List.length (requests w) + 2 * List.length rows.
Proof. cbn. now rewrite length_app, requests_all_length. Qed.

Lemma quiet_weaken w n m : m <= n -> quiet w n -> quiet w m.
Proof. intros L Q k Hk. apply Q. lia. Qed.

(** Quiet requests stay quiet once some of them are spent. *)
Lemma quiet_synced rows w n :
  quiet w (2 * List.length rows + n) -> quiet (synced rows w) n.
Proof.
  intros Q k Hk. rewrite synced_requests_length. cbn [failing synced].
  rewrite <- Nat.add_assoc. apply Q. lia.
Qed.

(** With no request failing, the loop upserts every record in order. *)
Lemma uploadLoop_quiet rows :
  forall w, quiet w (2 * List.length rows) ->
            uploadLoop rows w = (Returned tt, synced rows w).
Proof.
  induction rows as [|r rows IH]; intros w Q.
  - now rewrite synced_nil.
  - rewrite uploadLoop_cons. cbv zeta.
    pose proof (Q 0) as Q0. pose proof (Q 1) as Q1.
    rewrite Nat.add_0_r in Q0. rewrite Nat.add_1_r in Q1.
    cbn [List.length] in Q0, Q1.
    rewrite Q0, Q1 by lia.
    rewrite IH, <- synced_cons; [reflexivity|].
    apply (quiet_synced [r]). cbn [List.length] in *.
    eapply quiet_weaken; [|exact Q]. lia.
Qed.

Lemma uploadLoop_app a b w :
  uploadLoop (a ++ b) w = bind (uploadLoop a) (fun _ => uploadLoop b) w.
Proof.
  revert w. induction a as [|r a IH]; intros w; cbn [app].
  - reflexivity.
  - unfold bind at 1. rewrite !uploadLoop_cons. cbv zeta.
    destruct (failing w (List.length (requests w))); [reflexivity|].
    destruct (failing w (S (List.length (requests w)))); [reflexivity|].
    rewrite IH. reflexivity.
Qed.

(** *** Channels under upsert *)

Lemma matches_iff c row : Prisma.matches c row = true <-> channel row = c.
Proof. unfold Prisma.matches. destruct (JS.number_eq_dec _ _); intuition congruence. Qed.

Lemma overwrite_channel c f row :
  channel (Prisma.overwrite c f row) = channel row.
Proof. unfold Prisma.overwrite. now destruct (Prisma.matches c row). Qed.

Lemma overwrite_channels c f t :
  map channel (map (Prisma.overwrite c f) t) = map channel t.
Proof.
  rewrite map_map. apply map_ext. intros. apply overwrite_channel.
Qed.

Lemma has_channel_iff c t :
  existsb (Prisma.matches c) t = true <-> In c (map channel t).
Proof.
  rewrite existsb_exists, in_map_iff.
  split; intros (row & H1 & H2); exists row.
  - split; [now apply matches_iff | assumption].
  - split; [assumption | now apply matches_iff].
Qed.

Lemma upsert_channels r t :
  map channel (upsert r t)
  = if existsb (Prisma.matches (channel r)) t
    then map channel t
    else map channel t ++ [channel r].
Proof.
  unfold upsert. destruct (existsb _ t).
  - apply overwrite_channels.
  - now rewrite map_app.
Qed.

Lemma upsert_unique r t : unique_channels t -> unique_channels (upsert r t).
Proof.
  unfold unique_channels. intros U. rewrite upsert_channels.
  destruct (existsb _ t) eqn:E; [assumption|].
  apply NoDup_app; [assumption | repeat constructor; intros [] |].
  intros c Hc [<-|[]].
  apply has_channel_iff in Hc. congruence.
Qed.

Lemma upsert_all_unique rows :
  forall t, unique_channels t -> unique_channels (upsert_all rows t).
Proof.
  induction rows as [|r rows IH]; intros t U; cbn; [assumption|].
  apply IH. now apply upsert_unique.
Qed.

(** Whatever fails, the table the loop leaves is the upsert of a
    prefix of the records. *)
Lemma uploadLoop_table rows :
  forall w, exists done rest,
    rows = done ++ rest
    /\ table (snd (uploadLoop rows w)) = upsert_all done (table w).
Proof.
  induction rows as [|r rows IH]; intros w.
  - now exists [], [].
  - rewrite uploadLoop_cons. cbv zeta.
    destruct (failing w (List.length (requests w))).
    { now exists [], (r :: rows). }
    destruct (failing w (S (List.length (requests w)))).
    { now exists [], (r :: rows). }
    destruct (IH (synced [r] w)) as (done & rest & -> & T).
    exists (r :: done), rest. split; [reflexivity|].
    rewrite T. reflexivity.
Qed.

Lemma uploadData_table rows w :
  exists done rest,
    rows = done ++ rest
    /\ table (snd (uploadData rows w)) = upsert_all done (table w).
Proof.
  destruct (uploadLoop_table rows w) as (done & rest & E & T).
  exists done, rest. split; [assumption|].
  unfold uploadData, try_catch, bind.
  destruct (uploadLoop rows w) as [[[]|e] w1]; exact T.
Qed.

Lemma uploadData_quiet rows w :
  quiet w (2 * List.length rows) ->
  uploadData rows w
  = (Returned tt, add_line (Log DataUploaded) (synced rows w)).
Proof.
  intros Q. unfold uploadData.
  erewrite try_catch_returned; [reflexivity|].
  erewrite bind_returned by (apply uploadLoop_quiet; exact Q).
  reflexivity.
Qed.

(** C2: with no request failing, [uploadData] treats the records one at
    a time in sequence order: for each it queries the store by the
    record's channel, overwrites the frequency when a row with that
    channel exists, and inserts the record otherwise. *)
Theorem uploadData_upserts_in_order rows w :
  quiet w (2 * List.length rows) ->
  uploadData rows w
  = (Returned tt,
     add_line (Log DataUploaded)
       (mkWorld (disk w)
                (fold_left (fun t r => upsert r t) rows (table w))
                (requests w ++ requests_all rows (table w))
                (failing w) (console w) (connected w) (disconnects w))).
Proof.
  intros Q. now rewrite uploadData_quiet.
Qed.

(** C3: when the store holds at most one row per channel before
    [uploadData] runs, it still does afterwards, for every sequence of
    records and whichever requests fail. *)
Theorem uploadData_keeps_channels_unique rows w :
  unique_channels (table w) ->
  unique_channels (table (snd (uploadData rows w))).
Proof.
  intros U.
  destruct (uploadData_table rows w) as (done & rest & _ & ->).
  now apply upsert_all_unique.
Qed.

(** C5: when a request fails while the record after [done] is being
    treated (its query when [j = 0], its update or insertion when
    [j = 1]), [uploadData] returns without throwing, the records after
    it cause no request, one error line is printed, and the table holds
    exactly the upserts of [done]. *)
Theorem uploadData_stops_at_failure done r rest w j :
  j < 2 ->
  quiet w (2 * List.length done + j) ->
  failing w (List.length (requests w) + (2 * List.length done + j)) = true ->
  let t := upsert_all done (table w) in
  uploadData (done ++ r :: rest) w
  = (Returned tt,
     mkWorld (disk w) t
             (requests w ++ requests_all done (table w)
                ++ firstn (S j) (requests_of r t))
             (failing w)
             (console w
                ++ [Err (ErrorUpdatingData
                           (RequestFailed (nth j (requests_of r t) FindMany)))])
             (connected w) (disconnects w)).
Proof.
  intros J Q F t. unfold uploadData.
  assert (L : uploadLoop done w = (Returned tt, synced done w)).
  { apply uploadLoop_quiet. eapply quiet_weaken; [|exact Q]. lia. }
  pose proof (synced_requests_length done w) as N.
  assert (Q' : quiet (synced done w) j).
  { apply quiet_synced. exact Q. }
  set (w1 := synced done w) in *.
  assert (F' : failing w1 (List.length (requests w1) + j) = true).
  { rewrite N. subst w1. cbn [failing synced].
    rewrite <- Nat.add_assoc. exact F. }
  assert (A : uploadLoop (done ++ r :: rest) w
              = uploadLoop (r :: rest) w1).
  { rewrite uploadLoop_app. now erewrite bind_returned by exact L. }
  rewrite uploadLoop_cons in A. cbv zeta in A.
  destruct j as [|[|j]]; [| |lia].
  - rewrite Nat.add_0_r in F'. rewrite F' in A.
    erewrite try_catch_thrown by (apply bind_thrown; exact A).
    subst w1 t. unfold console_error, add_line, add_request, synced.
    cbn [disk table requests failing console connected disconnects
         firstn nth requests_of].
    now rewrite <- ?app_assoc.
  - pose proof (Q' 0 ltac:(lia)) as Q0.
    rewrite Nat.add_0_r in Q0. rewrite Nat.add_1_r in F'.
    rewrite Q0, F' in A.
    erewrite try_catch_thrown by (apply bind_thrown; exact A).
    subst w1 t.
    unfold console_error, add_line, add_request, synced, write_of.
    cbn [disk table requests failing console connected disconnects
         firstn nth requests_of].
    now rewrite <- ?app_assoc.
Qed.

(** C10: on the empty sequence [uploadData] sends no request, leaves
    every stored row as it was, and prints the success line. *)
Theorem uploadData_empty_sequence w :
  uploadData [] w = (Returned tt, add_line (Log DataUploaded) w)
  /\ requests (snd (uploadData [] w)) = requests w
  /\ table (snd (uploadData [] w)) = table w
  /\ console (snd (uploadData [] w)) = console w ++ [Log DataUploaded].
Proof. repeat split. Qed.

(** *** Running the synchroniser again *)

Lemma matches_sym a b :
  Prisma.matches (channel a) b = Prisma.matches (channel b) a.
Proof.
  unfold Prisma.matches.
  destruct (JS.number_eq_dec (channel b) (channel a)),
           (JS.number_eq_dec (channel a) (channel b)); congruence.
Qed.

Lemma last_frequency_snoc c rows r :
  last_frequency c (rows ++ [r])
  = if Prisma.matches c r then Some (frequency r) else last_frequency c rows.
Proof.
  induction rows as [|r0 rows IH]; cbn.
  - reflexivity.
  - rewrite IH. now destruct (Prisma.matches c r).
Qed.

Lemma last_frequency_member r rows :
  In r rows -> exists f, last_frequency (channel r) rows = Some f.
Proof.
  induction rows as [|r0 rows IH]; intros H; [destruct H|].
  destruct H as [->|H]; cbn.
  - destruct (last_frequency _ rows); [eauto|].
    assert (M : Prisma.matches (channel r) r = true) by now apply matches_iff.
    rewrite M. eauto.
  - destruct (IH H) as (f & ->). eauto.
Qed.

Lemma upsert_all_snoc rows r t :
  upsert_all (rows ++ [r]) t = upsert r (upsert_all rows t).
Proof. unfold upsert_all. now rewrite fold_left_app. Qed.

Lemma settled_snoc_other rows r row :
  channel row <> channel r -> settled rows row -> settled (rows ++ [r]) row.
Proof.
  intros D S f. rewrite last_frequency_snoc.
  destruct (Prisma.matches (channel row) r) eqn:M; [|apply S].
  apply matches_iff in M. congruence.
Qed.

Lemma settled_snoc_same rows r row :
  channel row = channel r -> frequency row = frequency r ->
  settled (rows ++ [r]) row.
Proof.
  intros C F f. rewrite last_frequency_snoc.
  assert (M : Prisma.matches (channel row) r = true)
    by (apply matches_iff; congruence).
  rewrite M. congruence.
Qed.

(** After a run, every row is settled. *)
Lemma upsert_all_settled rows :
  forall t row, In row (upsert_all rows t) -> settled rows row.
Proof.
  induction rows as [|r rows IH] using rev_ind; intros t row H.
  - intros f. discriminate.
  - rewrite upsert_all_snoc in H. unfold upsert in H.
    destruct (existsb _ (upsert_all rows t)) eqn:E.
    + apply in_map_iff in H. destruct H as (row0 & <- & H0).
      unfold Prisma.overwrite.
      destruct (Prisma.matches (channel r) row0) eqn:M.
      * apply matches_iff in M. now apply settled_snoc_same.
      * apply settled_snoc_other; [|eapply IH; eassumption].
        intros C. apply matches_iff in C. congruence.
    + apply in_app_iff in H. destruct H as [H|[<-|[]]].
      * apply settled_snoc_other; [|eapply IH; eassumption].
        intros C.
        assert (X : existsb (Prisma.matches (channel r)) (upsert_all rows t) = true).
        { apply has_channel_iff. rewrite <- C. now apply in_map. }
        congruence.
      * now apply settled_snoc_same.
Qed.

Lemma upsert_keeps_channel c r t :
  In c (map channel t) -> In c (map channel (upsert r t)).
Proof.
  rewrite upsert_channels. destruct (existsb _ t); [trivial|].
  intros. apply in_or_app. now left.
Qed.

Lemma upsert_has_channel r t : In (channel r) (map channel (upsert r t)).
Proof.
  rewrite upsert_channels. destruct (existsb _ t) eqn:E.
  - now apply has_channel_iff.
  - apply in_or_app. right. now left.
Qed.

Lemma upsert_all_keeps_channel c rows :
  forall t, In c (map channel t) -> In c (map channel (upsert_all rows t)).
Proof.
  induction rows as [|r rows IH]; intros t H; cbn; [assumption|].
  apply IH. now apply upsert_keeps_channel.
Qed.

(** After a run, every channel of the sequence is in the table. *)
Lemma upsert_all_has_channels rows :
  forall t r, In r rows -> In (channel r) (map channel (upsert_all rows t)).
Proof.
  induction rows as [|r0 rows IH]; intros t r H; [destruct H|].
  destruct H as [->|H]; cbn.
  - apply upsert_all_keeps_channel, upsert_has_channel.
  - now apply IH.
Qed.

Lemma finalize_cons r rows row :
  finalize rows (Prisma.overwrite (channel r) (frequency r) row)
  = finalize (r :: rows) row.
Proof.
  unfold finalize. cbn [last_frequency].
  rewrite overwrite_channel.
  destruct (last_frequency (channel row) rows); [reflexivity|].
  unfold Prisma.overwrite. rewrite (matches_sym r row).
  now destruct (Prisma.matches (channel row) r).
Qed.

Lemma upsert_all_present rows :
  forall t,
    (forall r, In r rows -> In (channel r) (map channel t)) ->
    upsert_all rows t = map (finalize rows) t.
Proof.
  induction rows as [|r rows IH]; intros t P; cbn [upsert_all fold_left].
  - unfold finalize. cbn. now rewrite map_id.
  - assert (E : existsb (Prisma.matches (channel r)) t = true).
    { apply has_channel_iff, P. now left. }
    unfold upsert at 2. rewrite E.
    change (fold_left (fun t r => upsert r t) rows ?x) with (upsert_all rows x).
    rewrite IH.
    + rewrite map_map. apply map_ext. intros. apply finalize_cons.
    + intros r' H. rewrite overwrite_channels. apply P. now right.
Qed.

Lemma finalize_settled rows row : settled rows row -> finalize rows row = row.
Proof.
  unfold finalize. intros S.
  destruct (last_frequency (channel row) rows) as [f|] eqn:L; [|reflexivity].
  rewrite <- (S f L). now destruct row.
Qed.

(** A second run over the same records changes no row. *)
Lemma upsert_all_idempotent rows t :
  upsert_all rows (upsert_all rows t) = upsert_all rows t.
Proof.
  rewrite upsert_all_present.
  - rewrite <- (map_id (upsert_all rows t)) at 2.
    apply map_ext_in. intros row H.
    apply finalize_settled. eapply upsert_all_settled, H.
  - intros r H. now apply upsert_all_has_channels.
Qed.

(** With every channel there, a run sends no insertion. *)
Lemma requests_all_no_create rows :
  forall t,
    (forall r, In r rows -> In (channel r) (map channel t)) ->
    Forall (fun q => is_create q = false) (requests_all rows t).
Proof.
  induction rows as [|r rows IH]; intros t P; cbn [requests_all].
  - constructor.
  - assert (E : existsb (Prisma.matches (channel r)) t = true).
    { apply has_channel_iff, P. now left. }
    unfold requests_of. rewrite E. cbn [app].
    repeat (constructor; [reflexivity|]).
    apply IH. intros r' H. apply upsert_keeps_channel, P. now right.
Qed.

Lemma quiet_add_line l w n : quiet w n -> quiet (add_line l w) n.
Proof. intros Q k Hk. apply Q, Hk. Qed.

(** C4: running [uploadData] twice in succession over the same
    sequence, on a store with at most one row per channel and with no
    request failing: the second run returns, sends queries and updates
    only, and leaves the table of the first run as it is; each channel
    of the sequence is in the table exactly once, on a row that holds
    the frequency of the last record with that channel. *)
Theorem uploadData_twice rows w :
  unique_channels (table w) ->
  quiet w (4 * List.length rows) ->
  let w1 := snd (uploadData rows w) in
  let w2 := snd (uploadData rows w1) in
  fst (uploadData rows w) = Returned tt
  /\ fst (uploadData rows w1) = Returned tt
  /\ table w2 = table w1
  /\ requests w2 = requests w1 ++ requests_all rows (table w1)
  /\ Forall (fun q => is_create q = false) (requests_all rows (table w1))
  /\ (forall r, In r rows ->
        exists f,
          last_frequency (channel r) rows = Some f
          /\ count_occ JS.number_eq_dec (map channel (table w2)) (channel r) = 1
          /\ In (mkExcelDataRow (channel r) f) (table w2)).
Proof.
  intros U Q w1 w2.
  assert (R1 : uploadData rows w
               = (Returned tt, add_line (Log DataUploaded) (synced rows w))).
  { apply uploadData_quiet. eapply quiet_weaken; [|exact Q]. lia. }
  assert (Q1 : quiet w1 (2 * List.length rows)).
  { subst w1. rewrite R1. cbn [snd].
    apply quiet_add_line, quiet_synced.
    eapply quiet_weaken; [|exact Q]. lia. }
  pose proof (uploadData_quiet rows Q1) as R2.
  assert (T1 : table w1 = upsert_all rows (table w)).
  { subst w1. now rewrite R1. }
  assert (T2 : table w2 = table w1).
  { subst w2. rewrite R2. cbn [snd add_line synced table].
    rewrite T1. apply upsert_all_idempotent. }
  assert (P : forall r, In r rows -> In (channel r) (map channel (table w1))).
  { intros r H. rewrite T1. now apply upsert_all_has_channels. }
  split; [now rewrite R1|].
  split; [now rewrite R2|].
  split; [exact T2|].
  split; [subst w2; now rewrite R2|].
  split; [now apply requests_all_no_create|].
  intros r H. destruct (last_frequency_member r rows H) as (f & L).
  exists f. rewrite T2. split; [exact L|]. split.
  - apply NoDup_count_occ'; [|now apply P].
    rewrite T1. now apply upsert_all_unique.
  - pose proof (P r H) as I. apply in_map_iff in I.
    destruct I as (row & C & I).
    assert (S : settled rows row).
    { rewrite T1 in I. eapply upsert_all_settled, I. }
    unfold settled in S. rewrite C in S. specialize (S f L).
    destruct row as [c' f']. cbn in C, S. now subst.
Qed.

End Synchroniser.

(** ** The orchestrator *)

Section Orchestrator.

Context {builtins : JS.Builtins}.

Lemma same_client_refl w : same_client w w.
Proof. now split. Qed.

Lemma same_client_trans w1 w2 w3 :
  same_client w1 w2 -> same_client w2 w3 -> same_client w1 w3.
Proof. unfold same_client. intuition congruence. Qed.

Lemma same_client_add_lines ls :
  forall w, same_client w (add_lines ls w).
Proof.
  induction ls as [|l ls IH]; intros w; cbn.
  - apply same_client_refl.
  - eapply same_client_trans; [|apply IH]. now split.
Qed.

(** The stages return, whatever happens to them, and leave the client
    alone. *)
Lemma readExcelFile_returns filePath w :
  exists w', readExcelFile filePath w = (Returned [], w')
             /\ same_client w w'.
Proof.
  destruct (disk w filePath) as [|wb] eqn:D.
  - eexists. split; [now apply readExcelFile_unreadable | now split].
  - destruct (ExcelJS.getWorksheet wb 1) as [worksheet|] eqn:G.
    + eexists. split; [eapply readExcelFile_sheet; eassumption|].
      apply same_client_add_lines.
    + eexists. split; [eapply readExcelFile_no_sheet; eassumption|].
      now split.
Qed.

Lemma uploadLoop_client rows :
  forall w, same_client w (snd (uploadLoop rows w)).
Proof.
  induction rows as [|r rows IH]; intros w.
  - apply same_client_refl.
  - rewrite uploadLoop_cons. cbv zeta.
    destruct (failing w (List.length (requests w))); [now split|].
    destruct (failing w (S (List.length (requests w)))); [now split|].
    eapply same_client_trans; [|apply IH]. now split.
Qed.

Lemma uploadData_returns rows w :
  exists w', uploadData rows w = (Returned tt, w') /\ same_client w w'.
Proof.
  pose proof (uploadLoop_client rows w) as K.
  unfold uploadData, try_catch, bind.
  destruct (uploadLoop rows w) as [[[]|e] w1]; cbn in K;
    eexists; (split; [reflexivity|]);
    (eapply same_client_trans; [exact K | now split]).
Qed.

Lemma fetchData_returns w :
  exists w', fetchData w = (Returned tt, w') /\ same_client w w'.
Proof.
  unfold fetchData, try_catch, bind, Prisma.findMany, bind,
    Prisma.round_trip.
  destruct (failing w (List.length (requests w)));
    eexists; (split; [reflexivity | now split]).
Qed.

(** A block guarded as the body of [main] is: it returns and
    disconnects, whatever the block does. *)
Lemma guarded_block_disconnects (body : Prog unit) w :
  exists w',
    try_finally
      (try_catch body (fun error => console_error (ErrorInMain error)))
      Prisma.disconnect w
    = (Returned tt, w')
    /\ connected w' = false
    /\ disconnects w' = S (disconnects (snd (body w))).
Proof.
  unfold try_finally, try_catch.
  destruct (body w) as [[[]|e] w1]; cbn; eauto.
Qed.

(** C9: [main] returns on every path, whether or not the file can be
    read and whichever store requests fail; the client is disconnected
    exactly once and is left disconnected. The guarded block of [main]
    returns and disconnects even around a body that throws. *)
Theorem main_always_disconnects :
  (forall w,
      exists w', main w = (Returned tt, w')
                 /\ connected w' = false
                 /\ disconnects w' = S (disconnects w))
  /\ (forall (body : Prog unit) w,
         exists w',
           try_finally
             (try_catch body (fun error => console_error (ErrorInMain error)))
             Prisma.disconnect w
           = (Returned tt, w')
           /\ connected w' = false).
Proof.
  split.
  - intros w. unfold main.
    erewrite bind_returned by reflexivity.
    set (w0 := set_connected true w).
    match goal with
    | |- context [try_finally (try_catch ?b _) _] => set (body := b)
    end.
    destruct (guarded_block_disconnects body w0) as (w' & E & C & N).
    exists w'. split; [exact E|]. split; [exact C|].
    rewrite N. f_equal.
    destruct (readExcelFile_returns (literal "D:/ExcelToTable.xlsx") w0)
      as (w1 & E1 & K1).
    destruct (uploadData_returns [] w1) as (w2 & E2 & K2).
    destruct (fetchData_returns w2) as (w3 & E3 & K3).
    subst body.
    erewrite bind_returned by exact E1.
    erewrite bind_returned by exact E2.
    erewrite bind_returned by exact E3.
    cbn [snd console_log add_line disconnects].
    destruct K1 as [_ K1], K2 as [_ K2], K3 as [_ K3].
    now rewrite K3, K2, K1.
  - intros body w.
    destruct (guarded_block_disconnects body w) as (w' & E & C & _).
    eauto.
Qed.

End Orchestrator.

(** ** Concrete runs *)

Section Runs.

Import Sample.

(** The scenario of the specification, run. No label passes the format
    check, so the four rows are turned down and the store stays empty. *)
Example scenario_extraction :
  readExcelFile (builtins := Reference.builtins) path
                (world scenario_sheet [] never)
  = (Returned [],
     add_lines [Err (InvalidChannel 1); Err (InvalidChannel 2);
                Err (InvalidChannel 3); Err (InvalidChannel 4)]
               (world scenario_sheet [] never)).
Proof. reflexivity. Qed.

Example scenario_main :
  let w := snd (main (builtins := Reference.builtins)
                     (world scenario_sheet [] never)) in
  console w
  = [Err (InvalidChannel 1); Err (InvalidChannel 2);
     Err (InvalidChannel 3); Err (InvalidChannel 4);
     Log DataUploaded; Log (FetchedData []); Log ProgramCompleted]
  /\ table w = [] /\ requests w = [FindMany]
  /\ connected w = false /\ disconnects w = 1.
Proof. repeat split. Qed.

Example unreadable_main :
  console (snd (main (builtins := Reference.builtins) empty_world))
  = [Err (ErrorReadingFile (ReadFileFailed path));
     Log DataUploaded; Log (FetchedData []); Log ProgramCompleted].
Proof. reflexivity. Qed.

(** The synchroniser on three records, two of them for channel 7. *)
Example records_synchronised :
  table (snd (uploadData records empty_world))
  = [record "7" "102.0"; record "9" "3"].
Proof. vm_compute. reflexivity. Qed.

Example records_requests :
  map is_create (requests (snd (uploadData records empty_world)))
  = [false; true; false; false; false; true].
Proof. vm_compute. reflexivity. Qed.

(** The fourth request failing: the second record is not written and
    the third is not reached. *)
Example records_broken :
  table (snd (uploadData records broken_world)) = [record "7" "101.5"]
  /\ List.length (requests (snd (uploadData records broken_world))) = 4
  /\ map is_error (console (snd (uploadData records broken_world))) = [true].
Proof. vm_compute. repeat split. Qed.

Example frequencies :
  frequencyAccepted (Reference.parseFloat (literal "101.5")) = true
  /\ frequencyAccepted (Reference.parseFloat (literal "-Infinity")) = true
  /\ frequencyAccepted (Reference.parseFloat (literal "abc")) = false.
Proof. vm_compute. repeat split. Qed.

(** The theorems that carry hypotheses, applied to concrete inputs. *)

Lemma marker_labels_never_accepted_witness :
  disk sheet_world path
  = ExcelJS.Readable [(1%Z, labelled_sheet)]
  /\ ExcelJS.getWorksheet [(1%Z, labelled_sheet)] 1
     = Some labelled_sheet
  /\ (forall row, In row labelled_sheet ->
        exists s, ExcelJS.value (ExcelJS.getCell row 1) = ExcelJS.VString s
                  /\ marker_then_digits s = true)
  /\ fst (readExcelFile (builtins := Reference.builtins)
                        path sheet_world) = Returned [].
Proof.
  assert (H1 : disk sheet_world path
               = ExcelJS.Readable [(1%Z, labelled_sheet)])
    by reflexivity.
  assert (H2 : ExcelJS.getWorksheet [(1%Z, labelled_sheet)] 1
               = Some labelled_sheet) by reflexivity.
  assert (H3 : forall row, In row labelled_sheet ->
            exists s, ExcelJS.value (ExcelJS.getCell row 1) = ExcelJS.VString s
                      /\ marker_then_digits s = true).
  { intros row H. cbn in H. destruct H as [<-|[<-|[]]];
      eexists; split; reflexivity. }
  split; [exact H1|]. split; [exact H2|]. split; [exact H3|].
  exact (proj2 (marker_labels_never_accepted (builtins := Reference.builtins))
               _ _ _ _ H1 H2 H3).
Defined.

Lemma readExcelFile_file_level_failure_witness :
  (disk empty_world path = ExcelJS.Unreadable
   \/ (exists wb, disk empty_world path = ExcelJS.Readable wb
                  /\ ExcelJS.getWorksheet wb 1 = None))
  /\ exists m,
       readExcelFile (builtins := Reference.builtins) path empty_world
       = (Returned [], add_line (Err m) empty_world).
Proof.
  assert (H : disk empty_world path = ExcelJS.Unreadable
              \/ (exists wb, disk empty_world path = ExcelJS.Readable wb
                             /\ ExcelJS.getWorksheet wb 1 = None))
    by (left; reflexivity).
  split; [exact H|].
  exact (readExcelFile_file_level_failure
           (builtins := Reference.builtins) path empty_world H).
Defined.

Lemma empty_frequency_row_excluded_witness :
  ExcelJS.type (ExcelJS.getCell empty_frequency_row 2) = ExcelJS.Null
  /\ (exists m,
        rowCallback (builtins := Reference.builtins)
                    empty_frequency_row 4 [] empty_world
        = (Returned [], add_line (Err m) empty_world)
        /\ row_named m = Some 4%Z)
  /\ readFrequency (builtins := Reference.builtins) 4 (JS.of_Z 9)
                   (ExcelJS.getCell empty_frequency_row 2) []
                   empty_world
     = (Returned [], add_line (Err (EmptyFrequency 4)) empty_world).
Proof.
  assert (H : ExcelJS.type (ExcelJS.getCell empty_frequency_row 2)
              = ExcelJS.Null) by reflexivity.
  split; [exact H|]. split.
  - exact (proj1 (empty_frequency_row_excluded (builtins := Reference.builtins))
                 empty_frequency_row [] empty_world H).
  - exact (proj2 (empty_frequency_row_excluded (builtins := Reference.builtins))
                 4%Z (JS.of_Z 9) _ [] empty_world H).
Defined.

Lemma uploadData_upserts_in_order_witness :
  quiet empty_world (2 * List.length records)
  /\ uploadData records empty_world
     = (Returned tt,
        add_line (Log DataUploaded)
          (mkWorld (disk empty_world)
             (fold_left (fun t r => upsert r t) records
                        (table empty_world))
             (requests empty_world
                ++ requests_all records (table empty_world))
             (failing empty_world) (console empty_world)
             (connected empty_world) (disconnects empty_world))).
Proof.
  assert (Q : quiet empty_world (2 * List.length records))
    by (intros k _; reflexivity).
  split; [exact Q|].
  exact (uploadData_upserts_in_order records Q).
Defined.

Lemma uploadData_keeps_channels_unique_witness :
  unique_channels (table failing_world)
  /\ unique_channels (table (snd (uploadData records failing_world))).
Proof.
  assert (U : unique_channels (table failing_world)).
  { repeat constructor. intros []. }
  split; [exact U|].
  exact (uploadData_keeps_channels_unique records failing_world U).
Defined.

Lemma uploadData_twice_witness :
  unique_channels (table empty_world)
  /\ quiet empty_world (4 * List.length records)
  /\ let w1 := snd (uploadData records empty_world) in
     let w2 := snd (uploadData records w1) in
     fst (uploadData records empty_world) = Returned tt
     /\ fst (uploadData records w1) = Returned tt
     /\ table w2 = table w1
     /\ requests w2 = requests w1 ++ requests_all records (table w1)
     /\ Forall (fun q => is_create q = false)
               (requests_all records (table w1))
     /\ (forall r, In r records ->
           exists f,
             last_frequency (channel r) records = Some f
             /\ count_occ JS.number_eq_dec (map channel (table w2))
                          (channel r) = 1
             /\ In (mkExcelDataRow (channel r) f) (table w2)).
Proof.
  assert (U : unique_channels (table empty_world)) by constructor.
  assert (Q : quiet empty_world (4 * List.length records))
    by (intros k _; reflexivity).
  split; [exact U|]. split; [exact Q|].
  exact (uploadData_twice records U Q).
Defined.

Lemma uploadData_stops_at_failure_witness :
  1 < 2
  /\ quiet broken_world (2 * 1 + 1)
  /\ failing broken_world
       (List.length (requests broken_world) + (2 * 1 + 1)) = true
  /\ uploadData ([record "7" "101.5"]
                   ++ record "7" "102.0" :: [record "9" "3"])
                broken_world
     = (Returned tt,
        mkWorld (disk broken_world) [record "7" "101.5"]
          [FindFirst (JS.of_Z 7); Create (record "7" "101.5");
           FindFirst (JS.of_Z 7);
           Update (JS.of_Z 7) (frequency (record "7" "102.0"))]
          (failing broken_world)
          [Err (ErrorUpdatingData
                  (RequestFailed
                     (Update (JS.of_Z 7)
                             (frequency (record "7" "102.0")))))]
          false 0).
Proof.
  assert (J : 1 < 2) by lia.
  assert (Q : quiet broken_world (2 * 1 + 1)).
  { intros k Hk. destruct k as [|[|[|k]]]; [reflexivity..|lia]. }
  assert (F : failing broken_world
                (List.length (requests broken_world) + (2 * 1 + 1)) = true)
    by reflexivity.
  split; [exact J|]. split; [exact Q|]. split; [exact F|].
  exact (@uploadData_stops_at_failure
           [record "7" "101.5"] (record "7" "102.0")
           [record "9" "3"] broken_world 1 J Q F).
Defined.

End Runs.

(** ** Further properties of the extractor *)

Section ExtractorAtLarge.

Context {builtins : JS.Builtins}.

Lemma add_lines_world ls :
  forall w,
    add_lines ls w
    = mkWorld (disk w) (table w) (requests w) (failing w)
              (console w ++ ls) (connected w) (disconnects w).
Proof.
  induction ls as [|l ls IH]; intros w; cbn.
  - destruct w. cbn. now rewrite app_nil_r.
  - rewrite IH. cbn. now rewrite <- app_assoc.
Qed.

Lemma rejections_are_errors worksheet :
  forallb is_error (rejections worksheet) = true.
Proof. induction worksheet; cbn; auto. Qed.

(** The extractor, in one equation for every world. *)
Lemma readExcelFile_frame filePath w :
  exists ls,
    readExcelFile filePath w
    = (Returned [],
       mkWorld (disk w) (table w) (requests w) (failing w)
               (console w ++ ls) (connected w) (disconnects w))
    /\ forallb is_error ls = true.
Proof.
  destruct (disk w filePath) as [|wb] eqn:D.
  - eexists [_]. split; [now apply readExcelFile_unreadable | reflexivity].
  - destruct (ExcelJS.getWorksheet wb 1) as [worksheet|] eqn:G.
    + exists (rejections worksheet). split.
      * rewrite <- add_lines_world. eapply readExcelFile_sheet; eassumption.
      * apply rejections_are_errors.
    + eexists [_]. split;
        [eapply readExcelFile_no_sheet; eassumption | reflexivity].
Qed.

(** X1: [isValidChannelFormat] answers [false] on every string: on the
    empty string, on a string without the marker, and on the marker
    alone as well. *)
Theorem isValidChannelFormat_never_true input :
  isValidChannelFormat input = false.
Proof. apply isValidChannelFormat_loop_false. Qed.

(** X2: whatever the disk holds, [readExcelFile] returns the empty
    sequence without throwing; it leaves the store and its request log
    untouched and prints error lines only. *)
Theorem readExcelFile_never_extracts filePath w :
  exists ls,
    readExcelFile filePath w
    = (Returned [],
       mkWorld (disk w) (table w) (requests w) (failing w)
               (console w ++ ls) (connected w) (disconnects w))
    /\ forallb is_error ls = true.
Proof. apply readExcelFile_frame. Qed.

(** X3: on a readable workbook with a first worksheet, [readExcelFile]
    prints exactly one invalid-channel line per row, in row order, each
    naming its row, and nothing else. *)
Theorem readExcelFile_one_error_per_row filePath w wb worksheet :
  disk w filePath = ExcelJS.Readable wb ->
  ExcelJS.getWorksheet wb 1 = Some worksheet ->
  console (snd (readExcelFile filePath w))
  = console w
      ++ map (fun row => Err (InvalidChannel (ExcelJS.number_ row))) worksheet.
Proof.
  intros D G. rewrite (readExcelFile_sheet _ _ D G).
  cbn [snd]. now rewrite add_lines_world.
Qed.

(** X5: for a frequency cell that is not of the null type, the frequency
    step is decided by the parsed text alone: NaN prints one
    invalid-frequency line for the row and pushes nothing; any other
    value is pushed at the end of the sequence with the row's channel,
    and nothing is printed. *)
Theorem frequency_step_decided_by_NaN rowNumber c frequencyCell excelData w :
  ExcelJS.type frequencyCell <> ExcelJS.Null ->
  readFrequency rowNumber c frequencyCell excelData w
  = if JS.isNaN (JS.parseFloat (ExcelJS.text frequencyCell))
    then (Returned excelData, add_line (Err (InvalidFrequency rowNumber)) w)
    else (Returned
            (excelData
               ++ [mkExcelDataRow c (JS.parseFloat (ExcelJS.text frequencyCell))]),
          w).
Proof.
  intros T. unfold readFrequency.
  assert (E : ExcelJS.ValueType_eqb (ExcelJS.type frequencyCell) ExcelJS.Null
              = false).
  { destruct (ExcelJS.type frequencyCell); try reflexivity. now elim T. }
  rewrite E. cbn [negb].
  destruct (JS.parseFloat (ExcelJS.text frequencyCell)); try reflexivity.
  unfold frequencyAccepted. cbn [JS.isNaN JS.Number_isNaN negb andb].
  now rewrite orb_true_r.
Qed.

End ExtractorAtLarge.

(** X4: in the test of line 34 the [indexOf] comparison never decides: a
    label that starts with the marker has the marker at index 0, so the
    digits of the channel are read from index 1. *)
Theorem marker_prefix_at_index_zero s :
  JS.startsWith s aleph = true ->
  JS.indexOf s aleph = 0%Z
  /\ (negb (JS.startsWith s aleph) || (JS.indexOf s aleph =? -1)%Z) = false
  /\ JS.substring s (JS.indexOf s aleph + 1) = tl s.
Proof.
  intros P.
  assert (I : JS.indexOf s aleph = 0%Z).
  { unfold JS.indexOf. destruct s; cbn [JS.indexOf_from]; now rewrite P. }
  rewrite I, P. repeat split.
Qed.

(** ** Further properties of the synchroniser *)

Section SynchroniserAtLarge.

Lemma synced_app a b w : synced (a ++ b) w = synced b (synced a w).
Proof.
  revert w. induction a as [|r a IH]; intros w; cbn [app].
  - now rewrite synced_nil.
  - now rewrite synced_cons, IH, <- synced_cons.
Qed.

(** The loop changes the table and the request log only, and sends at
    most two requests per record. *)
Lemma uploadLoop_frame rows :
  forall w, exists qs,
    snd (uploadLoop rows w)
    = mkWorld (disk w) (table (snd (uploadLoop rows w))) (requests w ++ qs)
              (failing w) (console w) (connected w) (disconnects w)
    /\ List.length qs <= 2 * List.length rows.
Proof.
  induction rows as [|r rows IH]; intros w.
  - exists []. destruct w. cbn. rewrite app_nil_r. split; [reflexivity|lia].
  - rewrite uploadLoop_cons. cbv zeta.
    destruct (failing w (List.length (requests w))).
    { exists [FindFirst (channel r)]. cbn. split; [reflexivity|lia]. }
    destruct (failing w (S (List.length (requests w)))).
    { exists [FindFirst (channel r); write_of r (table w)].
      split; [|cbn [List.length]; lia].
      unfold add_request.
      cbn [snd disk table requests failing console connected disconnects].
      now rewrite <- app_assoc. }
    destruct (IH (synced [r] w)) as (qs & E & L).
    exists (requests_of r (table w) ++ qs). split.
    + rewrite E at 1. cbn [synced disk requests failing console connected
                           disconnects requests_all].
      now rewrite app_nil_r, <- app_assoc.
    + rewrite length_app. cbn [List.length requests_of]. lia.
Qed.

(** Whether the loop returns is whether its requests are quiet. *)
Lemma quiet_step r w n :
  failing w (List.length (requests w)) = false ->
  failing w (S (List.length (requests w))) = false ->
  quiet (synced [r] w) n -> quiet w (2 + n).
Proof.
  intros F0 F1 Q k Hk.
  destruct k as [|[|k]].
  - now rewrite Nat.add_0_r.
  - now rewrite Nat.add_1_r.
  - specialize (Q k ltac:(lia)).
    rewrite synced_requests_length in Q. cbn [failing synced List.length] in Q.
    replace (List.length (requests w) + S (S k))
      with (List.length (requests w) + 2 * 1 + k) by lia.
    exact Q.
Qed.

Lemma uploadLoop_outcome rows :
  forall w,
    (quiet w (2 * List.length rows) /\ fst (uploadLoop rows w) = Returned tt)
    \/ (~ quiet w (2 * List.length rows)
        /\ exists q, fst (uploadLoop rows w) = Thrown (RequestFailed q)).
Proof.
  induction rows as [|r rows IH]; intros w.
  - left. split; [intros k Hk; cbn in Hk; lia | reflexivity].
  - rewrite uploadLoop_cons. cbv zeta.
    destruct (failing w (List.length (requests w))) eqn:F0.
    { right. split; [|eexists; reflexivity].
      intros Q. specialize (Q 0 ltac:(cbn; lia)).
      rewrite Nat.add_0_r in Q. congruence. }
    destruct (failing w (S (List.length (requests w)))) eqn:F1.
    { right. split; [|eexists; reflexivity].
      intros Q. specialize (Q 1 ltac:(cbn; lia)).
      rewrite Nat.add_1_r in Q. congruence. }
    destruct (IH (synced [r] w)) as [(Q & E) | (N & E)].
    + left. split; [|exact E].
      replace (2 * List.length (r :: rows)) with (2 + 2 * List.length rows)
        by (cbn [List.length]; lia).
      eapply quiet_step; eassumption.
    + right. split; [|exact E].
      intros Q. apply N. apply (quiet_synced [r]).
      eapply quiet_weaken; [|exact Q]. cbn [List.length]. lia.
Qed.

(** X6: [uploadData] returns without throwing for every sequence and
    whichever requests fail. It changes nothing but the table, the
    request log and the console; it sends at most two requests per
    record and prints exactly one line. *)
Theorem uploadData_always_returns rows w :
  exists t qs line,
    uploadData rows w
    = (Returned tt,
       mkWorld (disk w) t (requests w ++ qs) (failing w)
               (console w ++ [line]) (connected w) (disconnects w))
    /\ List.length qs <= 2 * List.length rows.
Proof.
  destruct (uploadLoop_frame rows w) as (qs & E & L).
  unfold uploadData, try_catch, bind.
  destruct (uploadLoop rows w) as [[[]|e] w1]; cbn [snd] in E;
    rewrite E; eexists _, qs, _; (split; [reflexivity | exact L]).
Qed.

(** X7: the line [uploadData] prints is the success line exactly when
    none of its two requests per record fails; otherwise it is the error
    line, and the error is that of the failed request. *)
Theorem uploadData_reports_success_iff_quiet rows w :
  (quiet w (2 * List.length rows)
   /\ console (snd (uploadData rows w)) = console w ++ [Log DataUploaded])
  \/ (~ quiet w (2 * List.length rows)
      /\ exists q,
           console (snd (uploadData rows w))
           = console w ++ [Err (ErrorUpdatingData (RequestFailed q))]).
Proof.
  destruct (uploadLoop_frame rows w) as (qs & E & _).
  destruct (uploadLoop_outcome rows w) as [(Q & O) | (N & q & O)].
  - left. split; [exact Q|].
    unfold uploadData, try_catch, bind.
    destruct (uploadLoop rows w) as [o w1]. cbn [fst snd] in *. subst o.
    rewrite E. reflexivity.
  - right. split; [exact N|]. exists q.
    unfold uploadData, try_catch, bind.
    destruct (uploadLoop rows w) as [o w1]. cbn [fst snd] in *. subst o.
    rewrite E. reflexivity.
Qed.

(** *** Rows that stay *)






(** X10: after [uploadData] has run with no request failing, looking a
    channel of the sequence up in the table finds a row for that channel
    holding the frequency of the last record with the channel. *)
Theorem lookup_after_uploadData rows w r :
  quiet w (2 * List.length rows) ->
  In r rows ->
  exists f,
    last_frequency (channel r) rows = Some f
    /\ find (Prisma.matches (channel r)) (table (snd (uploadData rows w)))
       = Some (mkExcelDataRow (channel r) f).
Proof.
  intros Q H. rewrite (uploadData_quiet rows Q). cbn [snd add_line synced table].
  destruct (last_frequency_member r rows H) as (f & L).
  exists f. split; [exact L|].
  pose proof (upsert_all_has_channels rows (table w) r H) as P.
  apply has_channel_iff in P. rewrite find_existsb in P.
  destruct (find _ (upsert_all rows (table w))) as [row|] eqn:F;
    [|discriminate].
  apply find_some in F. destruct F as (I & M).
  apply matches_iff in M.
  pose proof (upsert_all_settled rows (table w) row I) as S.
  unfold settled in S. rewrite M in S. specialize (S f L).
  destruct row as [c' f']. cbn in M, S. now subst.
Qed.

(** X11: with no request failing, uploading a sequence in one call or
    in two calls, first a part and then the rest, leaves the same table
    and the same request log. *)
Theorem uploadData_in_two_calls a b w :
  quiet w (2 * List.length (a ++ b)) ->
  table (snd (uploadData (a ++ b) w))
  = table (snd (uploadData b (snd (uploadData a w))))
  /\ requests (snd (uploadData (a ++ b) w))
     = requests (snd (uploadData b (snd (uploadData a w)))).
Proof.
  intros Q. rewrite length_app in Q.
  assert (Qa : quiet w (2 * List.length a))
    by (eapply quiet_weaken; [|exact Q]; lia).
  assert (Qb : quiet (add_line (Log DataUploaded) (synced a w))
                     (2 * List.length b)).
  { apply quiet_add_line, quiet_synced.
    eapply quiet_weaken; [|exact Q]. lia. }
  rewrite (uploadData_quiet a Qa). cbn [snd].
  rewrite (uploadData_quiet b Qb).
  rewrite uploadData_quiet
    by (rewrite length_app; eapply quiet_weaken; [|exact Q]; lia).
  cbn [snd]. rewrite synced_app. split; reflexivity.
Qed.

(** *** Runs of insertions, runs of updates *)




End SynchroniserAtLarge.

(** ** The reporter and the whole run *)

Section WholeRun.

Context {builtins : JS.Builtins}.

Lemma fetchData_run w :
  fetchData w
  = (Returned tt,
     mkWorld (disk w) (table w) (requests w ++ [FindMany]) (failing w)
             (console w
                ++ [if failing w (List.length (requests w))
                    then Err (ErrorFetchingData (RequestFailed FindMany))
                    else Log (FetchedData (table w))])
             (connected w) (disconnects w)).
Proof.
  unfold fetchData, try_catch, bind, Prisma.findMany, bind, Prisma.round_trip.
  now destruct (failing w (List.length (requests w))).
Qed.

(** X14: [fetchData] returns without throwing and does not change the
    table. It sends one find-all request and prints one line: the rows
    of the table as they are, or the error when the request fails. *)
Theorem fetchData_reports_the_table w :
  fetchData w
  = (Returned tt,
     mkWorld (disk w) (table w) (requests w ++ [FindMany]) (failing w)
             (console w
                ++ [if failing w (List.length (requests w))
                    then Err (ErrorFetchingData (RequestFailed FindMany))
                    else Log (FetchedData (table w))])
             (connected w) (disconnects w)).
Proof. apply fetchData_run. Qed.

(** X15: a run of [main] never writes to the store, whatever the disk
    holds: the table is left as it was and the only request sent is the
    find-all of the report. The console shows the error lines of the
    extraction, then the upload success line, the report (or its error)
    and the completion line, in this order; the error line of [main]
    itself is never printed. *)
Theorem main_never_writes w :
  exists ls,
    forallb is_error ls = true
    /\ main w
       = (Returned tt,
          mkWorld (disk w) (table w) (requests w ++ [FindMany]) (failing w)
                  (console w ++ ls
                     ++ [Log DataUploaded;
                         if failing w (List.length (requests w))
                         then Err (ErrorFetchingData (RequestFailed FindMany))
                         else Log (FetchedData (table w));
                         Log ProgramCompleted])
                  false (S (disconnects w))).
Proof.
  destruct (readExcelFile_frame (literal "D:/ExcelToTable.xlsx")
                                (set_connected true w)) as (ls & E & L).
  exists ls. split; [exact L|].
  unfold main. erewrite bind_returned by reflexivity.
  unfold try_finally, try_catch.
  erewrite bind_returned by exact E.
  erewrite bind_returned by reflexivity.
  rewrite (@bind_returned _ _ fetchData _ _ _ _ (fetchData_run _)).
  cbn. unfold count_disconnect, add_line.
  cbn [disk table requests failing console connected disconnects].
  now rewrite <- !app_assoc.
Qed.

End WholeRun.

(** ** The further theorems that carry hypotheses, at concrete inputs *)

Section MoreRuns.

Import Sample.


Lemma readExcelFile_one_error_per_row_witness :
  disk scenario_world path = ExcelJS.Readable [(1%Z, scenario_sheet)]
  /\ ExcelJS.getWorksheet [(1%Z, scenario_sheet)] 1 = Some scenario_sheet
  /\ console (snd (readExcelFile (builtins := Reference.builtins)
                                 path scenario_world))
     = console scenario_world
         ++ map (fun row => Err (InvalidChannel (ExcelJS.number_ row)))
                scenario_sheet.
Proof.
  assert (H1 : disk scenario_world path
               = ExcelJS.Readable [(1%Z, scenario_sheet)]) by reflexivity.
  assert (H2 : ExcelJS.getWorksheet [(1%Z, scenario_sheet)] 1
               = Some scenario_sheet) by reflexivity.
  split; [exact H1|]. split; [exact H2|].
  exact (@readExcelFile_one_error_per_row Reference.builtins
           path scenario_world _ _ H1 H2).
Defined.

Lemma marker_prefix_at_index_zero_witness :
  JS.startsWith (label "7") aleph = true
  /\ JS.indexOf (label "7") aleph = 0%Z
  /\ (negb (JS.startsWith (label "7") aleph)
      || (JS.indexOf (label "7") aleph =? -1)%Z) = false
  /\ JS.substring (label "7") (JS.indexOf (label "7") aleph + 1)
     = tl (label "7").
Proof.
  assert (H : JS.startsWith (label "7") aleph = true) by reflexivity.
  split; [exact H|].
  exact (@marker_prefix_at_index_zero (label "7") H).
Defined.

Lemma frequency_step_decided_by_NaN_witness :
  ExcelJS.type (number_cell "101.5") <> ExcelJS.Null
  /\ readFrequency (builtins := Reference.builtins)
                   1 (JS.of_Z 7) (number_cell "101.5") [] empty_world
     = if JS.isNaN (Reference.parseFloat (ExcelJS.text (number_cell "101.5")))
       then (Returned [], add_line (Err (InvalidFrequency 1)) empty_world)
       else (Returned
               ([] ++ [mkExcelDataRow
                         (JS.of_Z 7)
                         (Reference.parseFloat
                            (ExcelJS.text (number_cell "101.5")))]),
             empty_world).
Proof.
  assert (H : ExcelJS.type (number_cell "101.5") <> ExcelJS.Null)
    by (simpl; discriminate).
  split; [exact H|].
  exact (@frequency_step_decided_by_NaN Reference.builtins
           1%Z (JS.of_Z 7) (number_cell "101.5") [] empty_world H).
Defined.


Lemma lookup_after_uploadData_witness :
  quiet empty_world (2 * List.length records)
  /\ In (record "7" "101.5") records
  /\ exists f,
       last_frequency (channel (record "7" "101.5")) records = Some f
       /\ find (Prisma.matches (channel (record "7" "101.5")))
               (table (snd (uploadData records empty_world)))
          = Some (mkExcelDataRow (channel (record "7" "101.5")) f).
Proof.
  assert (Q : quiet empty_world (2 * List.length records))
    by (intros k _; reflexivity).
  assert (H : In (record "7" "101.5") records) by (left; reflexivity).
  split; [exact Q|]. split; [exact H|].
  exact (@lookup_after_uploadData records empty_world
           (record "7" "101.5") Q H).
Defined.

Lemma uploadData_in_two_calls_witness :
  quiet empty_world
        (2 * List.length ([record "7" "101.5"] ++ fresh_records))
  /\ table (snd (uploadData ([record "7" "101.5"] ++ fresh_records)
                            empty_world))
     = table (snd (uploadData
                     fresh_records
                     (snd (uploadData [record "7" "101.5"] empty_world))))
  /\ requests (snd (uploadData ([record "7" "101.5"] ++ fresh_records)
                               empty_world))
     = requests (snd (uploadData
                        fresh_records
                        (snd (uploadData [record "7" "101.5"] empty_world)))).
Proof.
  assert (Q : quiet empty_world
                (2 * List.length ([record "7" "101.5"] ++ fresh_records)))
    by (intros k _; reflexivity).
  split; [exact Q|].
  exact (@uploadData_in_two_calls [record "7" "101.5"] fresh_records
           empty_world Q).
Defined.



(** The store of the update-only run, computed. *)
Example known_channels_updated :
  table (snd (uploadData records stored_world))
  = [record "3" "0.5"; record "7" "102.0"; record "9" "3"].
Proof. vm_compute. reflexivity. Qed.

End MoreRuns.
